(** * A shallow embedding of the qkart backend: cart service and user model

    Sources: src/services/cart.service.js and src/models/user.model.js.

    Modelling choices.
    - Documents are records; the three Mongo collections are part of an
      explicit [Store]: users and carts are keyed by email (the filter the
      code queries them with), products are a list searched by [_id]
      (the [Product.findOne({_id: productId})] query).
    - JS numbers (quantities, costs, wallet balances) are modelled as [Z].
    - Every durable write ([doc.save()], [Cart.create]) consumes one entry of
      a fault oracle [faults]: [true] (or an exhausted oracle) means the
      write is stored, [false] means the driver fails and the write is lost.
    - The service functions run in a state-and-error monad over [Store]:
      an error leaves the writes performed before it in the store, as the
      awaited [save] calls of the source do. *)

From Stdlib Require Import ZArith Lia.
From stdpp Require Import base gmap list strings.
From Stdlib Require Import Strings.String Strings.Ascii.

Open Scope Z_scope.

(** ** Data model *)

Record Product := mkProduct {
  _id : string;
  cost : Z;
}.

(** A line item embeds a snapshot of the product document. *)
Record CartItem := mkCartItem {
  product : Product;
  quantity : Z;
}.

Record Cart := mkCart {
  cart_email : string;
  cartItems : list CartItem;
}.

Record User := mkUser {
  name : string;
  email : string;
  password : string;
  walletMoney : Z;
  address : string;
}.

Record Store := mkStore {
  users : gmap string User;
  carts : gmap string Cart;
  products : list Product;
  faults : list bool;
}.

(** [ApiError(status, message)] of the service, the driver's own failure of
    a write, and mongoose's [ValidationError]. *)
Inductive Error :=
| ApiError (status : Z) (message : string)
| PersistError
| ValidationError (message : string).

(** ** The state-and-error monad *)

Definition M (A : Type) : Type := Store -> (Error + A) * Store.

Definition ret {A} (x : A) : M A := fun s => (inr x, s).

Definition bind {A B} (m : M A) (f : A -> M B) : M B := fun s =>
  match m s with
  | (inl e, s') => (inl e, s')
  | (inr a, s') => f a s'
  end.

(** [let* x := m in k] is [const x = await m; k]. *)
Notation "'let*' x ':=' m 'in' k" := (bind m (fun x => k))
  (at level 200, x name, m at level 100, k at level 200).
Notation "m ';;;' k" := (bind m (fun _ => k)) (at level 100, right associativity).

Definition throw {A} (e : Error) : M A := fun s => (inl e, s).

(** *** Persistence primitives *)

(** [Product.findOne({_id: productId}).exec()] *)
Definition findProduct (productId : string) : M (option Product) :=
  fun s => (inr (List.find (fun p => String.eqb (_id p) productId) (products s)), s).

(** [Cart.findOne({email: email}).exec()] *)
Definition findCart (e : string) : M (option Cart) :=
  fun s => (inr (carts s !! e), s).

(** Outcome of the next durable write, consumed from the oracle. *)
Definition next_write : M bool :=
  fun s =>
    match faults s with
    | [] => (inr true, s)
    | b :: rest => (inr b, mkStore (users s) (carts s) (products s) rest)
    end.

Definition put_cart (c : Cart) : M unit :=
  fun s => (inr tt, mkStore (users s) (<[cart_email c := c]> (carts s)) (products s) (faults s)).

Definition put_user (u : User) : M unit :=
  fun s => (inr tt, mkStore (<[email u := u]> (users s)) (carts s) (products s) (faults s)).

(** [cart.save()] *)
Definition saveCart (c : Cart) : M unit :=
  let* ok := next_write in
  if ok then put_cart c else throw PersistError.

(** [user.save()] *)
Definition saveUser (u : User) : M unit :=
  let* ok := next_write in
  if ok then put_user u else throw PersistError.

(** [Cart.create({email, cartItems: []})]: the created document. Like
    [save], a failed write rejects the promise, so the awaiting caller throws
    the driver's error; a resolved [create] is never falsy. *)
Definition createCart (e : string) : M (option Cart) :=
  let* ok := next_write in
  if ok then (let c := mkCart e [] in put_cart c;;; ret (Some c)) else throw PersistError.

(** ** Cart service (src/services/cart.service.js) *)

Definition BAD_REQUEST : Z := 400.
Definition NOT_FOUND : Z := 404.
Definition INTERNAL_SERVER_ERROR : Z := 500.

(** [item => item.product._id == productId] *)
Definition item_matches (productId : string) (item : CartItem) : bool :=
  String.eqb (_id (product item)) productId.

(** [Array.prototype.filter] whose results are the array's own element
    objects: the references are kept as indices into the array, so that a
    write through [updateProduct[0]] is a write into [cartItems]. *)
Fixpoint filter_refs_from {A} (f : A -> bool) (i : nat) (l : list A) : list nat :=
  match l with
  | [] => []
  | x :: l' => if f x then i :: filter_refs_from f (S i) l' else filter_refs_from f (S i) l'
  end.

Definition filter_refs {A} (f : A -> bool) (l : list A) : list nat := filter_refs_from f 0 l.

(** JS truthiness of an array value: every array, even [[]], is an object
    and therefore truthy. *)
Definition array_truthy {A} (l : list A) : bool := true.

(** [item.quantity = q] on the element at index [i]. *)
Definition set_quantity_at (i : nat) (q : Z) (items : list CartItem) : list CartItem :=
  alter (fun it => mkCartItem (product it) q) i items.

(** [getCartByUser] *)
Definition getCartByUser (user : User) : M Cart :=
  let* userCart := findCart (email user) in
  match userCart with
  | Some c => ret c
  | None => throw (ApiError NOT_FOUND "User does not have a cart")
  end.

(** [addProductToCart] *)
Definition addProductToCart (user : User) (productId : string) (quantity : Z) : M Cart :=
  let* prod := findProduct productId in
  match prod with
  | None => throw (ApiError 400 "Product doesn't exist in database")
  | Some prod =>
    let* found := findCart (email user) in
    let* userCart :=
      match found with
      | Some c => ret c
      | None =>
        let* created := createCart (email user) in
        match created with
        | None => throw (ApiError 500 "Internal Server Error")
        | Some c => ret c
        end
      end in
    if negb (Nat.eqb (List.length (List.filter (item_matches productId) (cartItems userCart))) 0) then
      throw (ApiError 400 "Product already in cart. Use the cart sidebar to update or remove product from cart")
    else
      let userCart' := mkCart (cart_email userCart)
                         (cartItems userCart ++ [mkCartItem prod quantity]) in
      saveCart userCart';;;
      ret userCart'
  end.

(** [deleteProductFromCart] *)
Definition deleteProductFromCart (user : User) (productId : string) : M Cart :=
  let* found := findCart (email user) in
  match found with
  | None => throw (ApiError 400 "User does not have a cart")
  | Some userCart =>
    let updateProduct := List.filter (item_matches productId) (cartItems userCart) in
    if negb (array_truthy updateProduct) then
      throw (ApiError 400 "Product not in cart")
    else
      let userCart' := mkCart (cart_email userCart)
                         (List.filter (fun item => negb (item_matches productId item)) (cartItems userCart)) in
      saveCart userCart';;;
      ret userCart'
  end.

(** [updateProductInCart]; [updateProduct.length == 0] is the empty case of
    the reference list, [updateProduct[0]] its head. *)
Definition updateProductInCart (user : User) (productId : string) (quantity : Z) : M Cart :=
  let* prod := findProduct productId in
  match prod with
  | None => throw (ApiError 400 "Product doesn't exist in database")
  | Some _ =>
    let* found := findCart (email user) in
    match found with
    | None => throw (ApiError 400 "User does not have a cart. Use POST to create cart and add a product")
    | Some userCart =>
      match filter_refs (item_matches productId) (cartItems userCart) with
      | [] => throw (ApiError 400 "Product not in cart")
      | i :: _ =>
        if quantity <=? 0 then deleteProductFromCart user productId
        else
          let userCart' := mkCart (cart_email userCart)
                             (set_quantity_at i quantity (cartItems userCart)) in
          saveCart userCart';;;
          ret userCart'
      end
    end
  end.

Section Checkout.

(** [config.default_address] *)
Variable default_address : string.

(** [userSchema.methods.hasSetNonDefaultAddress]: [user.address != config.default_address] *)
Definition hasSetNonDefaultAddress (user : User) : bool :=
  negb (String.eqb (address user) default_address).

(** [cartItems.reduce((sum, item) => sum += item.quantity * item.product.cost, 0)] *)
Definition totalBill (items : list CartItem) : Z :=
  fold_left (fun sum item => sum + quantity item * cost (product item)) items 0.

(** [checkout]: the in-memory user and cart are mutated, then the cart is
    saved, then the user. *)
Definition checkout (user : User) : M Cart :=
  let* userCart := getCartByUser user in
  if Nat.eqb (List.length (cartItems userCart)) 0 then
    throw (ApiError BAD_REQUEST "Cart is Empty")
  else if negb (hasSetNonDefaultAddress user) then
    throw (ApiError BAD_REQUEST "Address not set")
  else
    let bill := totalBill (cartItems userCart) in
    if bill >? walletMoney user then
      throw (ApiError BAD_REQUEST "Insuficient Balance")
    else
      let user' := mkUser (name user) (email user) (password user)
                     (walletMoney user - bill) (address user) in
      let userCart' := mkCart (cart_email userCart) [] in
      saveCart userCart';;;
      saveUser user';;;
      ret userCart'.

End Checkout.

(** ** User model validators (src/models/user.model.js) *)

Module Regex.

(** Regular expressions over characters, matched by Brzozowski derivatives;
    a character class is a boolean predicate. *)
Inductive re :=
| RNone
| REps
| RChr (cls : ascii -> bool)
| RCat (r1 r2 : re)
| RAlt (r1 r2 : re)
| RStar (r : re).

Fixpoint nullable (r : re) : bool :=
  match r with
  | RNone => false
  | REps => true
  | RChr _ => false
  | RCat r1 r2 => nullable r1 && nullable r2
  | RAlt r1 r2 => nullable r1 || nullable r2
  | RStar _ => true
  end.

Fixpoint deriv (c : ascii) (r : re) : re :=
  match r with
  | RNone => RNone
  | REps => RNone
  | RChr cls => if cls c then REps else RNone
  | RCat r1 r2 =>
    if nullable r1 then RAlt (RCat (deriv c r1) r2) (deriv c r2)
    else RCat (deriv c r1) r2
  | RAlt r1 r2 => RAlt (deriv c r1) (deriv c r2)
  | RStar r1 => RCat (deriv c r1) (RStar r1)
  end.

(** Whole-string match, i.e. a pattern anchored by [^] and [$]. *)
Definition full_match (r : re) (s : string) : bool :=
  nullable (fold_left (fun r c => deriv c r) (list_ascii_of_string s) r).

Definition plus (r : re) : re := RCat r (RStar r).
Fixpoint seq (rs : list re) : re :=
  match rs with [] => REps | [r] => r | r :: rs' => RCat r (seq rs') end.
Definition lit (c : ascii) : re := RChr (fun d => Ascii.eqb d c).
(** [r{1,3}] *)
Definition rep1to3 (r : re) : re := RAlt r (RAlt (RCat r r) (RCat r (RCat r r))).
(** [r{2,}] *)
Definition rep2plus (r : re) : re := RCat r (plus r).

End Regex.

Definition in_range (lo hi : nat) (c : ascii) : bool :=
  Nat.leb lo (nat_of_ascii c) && Nat.leb (nat_of_ascii c) hi.

(** [\d] *)
Definition is_digit (c : ascii) : bool := in_range 48 57 c.
(** [[a-zA-Z]] *)
Definition is_letter (c : ascii) : bool := in_range 65 90 c || in_range 97 122 c.

(** [\s] restricted to 8-bit characters: tab, line feed, vertical tab,
    form feed, carriage return, space and no-break space. *)
Definition is_space (c : ascii) : bool :=
  in_range 9 13 c || Nat.eqb (nat_of_ascii c) 32 || Nat.eqb (nat_of_ascii c) 160.

(** [.]: any character but a line terminator. *)
Definition is_dot_char (c : ascii) : bool :=
  negb (Nat.eqb (nat_of_ascii c) 10 || Nat.eqb (nat_of_ascii c) 13).

(** The double quote character. *)
Definition dquote : ascii := ascii_of_nat 34.

(** [[^<>()[\]\\.,;:\s@Q]], Q being the double quote. *)
Definition is_local_char (c : ascii) : bool :=
  negb (existsb (Ascii.eqb c) (list_ascii_of_string "<>()[]\.,;:@") || Ascii.eqb c dquote
        || is_space c).

(** The regex of the email validator, with Q for the double quote:
    [/^(([^<>()[\]\\.,;:\s@Q]+(\.[^<>()[\]\\.,;:\s@Q]+)* )|(Q.+Q))@((\[[0-9]{1,3}\.[0-9]{1,3}\.[0-9]{1,3}\.[0-9]{1,3}\])|(([a-zA-Z\-0-9]+\.)+[a-zA-Z]{2,}))$/] *)
Definition email_re : Regex.re :=
  let L := Regex.RChr is_local_char in
  let dot := Regex.lit "."%char in
  let d3 := Regex.rep1to3 (Regex.RChr is_digit) in
  let local :=
    Regex.RAlt
      (Regex.RCat (Regex.plus L) (Regex.RStar (Regex.RCat dot (Regex.plus L))))
      (Regex.seq [Regex.lit dquote; Regex.plus (Regex.RChr is_dot_char); Regex.lit dquote]) in
  let domain :=
    Regex.RAlt
      (Regex.seq [Regex.lit "["%char; d3; dot; d3; dot; d3; dot; d3; Regex.lit "]"%char])
      (Regex.RCat
         (Regex.plus (Regex.RCat (Regex.plus (Regex.RChr (fun c => is_letter c || Ascii.eqb c "-"%char || is_digit c))) dot))
         (Regex.rep2plus (Regex.RChr is_letter))) in
  Regex.seq [local; Regex.lit "@"%char; domain].

(** The JS values the validator handles. *)
Inductive JsVal := JsString (s : string) | JsBool (b : bool).

(** [===]: values of different types are never strictly equal. *)
Definition js_strict_eq (a b : JsVal) : bool :=
  match a, b with
  | JsString x, JsString y => String.eqb x y
  | JsBool x, JsBool y => Bool.eqb x y
  | _, _ => false
  end.

(** ToString, the coercion [RegExp.prototype.test] applies to its argument. *)
Definition js_to_string (v : JsVal) : string :=
  match v with
  | JsString s => s
  | JsBool true => "true"
  | JsBool false => "false"
  end.

Definition ascii_to_lower (c : ascii) : ascii :=
  if in_range 65 90 c then ascii_of_nat (nat_of_ascii c + 32) else c.

(** [String.prototype.toLowerCase] on 8-bit ASCII letters. *)
Definition toLowerCase (s : string) : string :=
  string_of_list_ascii (List.map ascii_to_lower (list_ascii_of_string s)).

(** [re.test(x)] of an anchored regex. *)
Definition re_test (r : Regex.re) (x : JsVal) : bool := Regex.full_match r (js_to_string x).

(** The email validator as written:
    [if( re.test(String(value).toLowerCase() === false)) throw new Error(...)]
    a throw is reported by mongoose as a [ValidationError]. *)
Definition validate_email (value : string) : Error + unit :=
  if re_test email_re (JsBool (js_strict_eq (JsString (toLowerCase value)) (JsBool false)))
  then inl (ValidationError "Invalid Email")
  else inr tt.

(** [value.match(/c/)] is truthy iff some character of [value] is in class [c]. *)
Definition str_match (cls : ascii -> bool) (value : string) : bool :=
  existsb cls (list_ascii_of_string value).

(** The password validator. *)
Definition validate_password (value : string) : Error + unit :=
  if Nat.ltb (String.length value) 8 then
    inl (ValidationError "Password must contain at least 8 characters")
  else if negb (str_match is_digit value) || negb (str_match is_letter value) then
    inl (ValidationError "Password must contain at least one letter and one number")
  else inr tt.

Section PasswordSave.

(** [bcrypt.hash] with a generated salt, a black box. *)
Variable hash : string -> string.

(** Saving a user whose password path was just set: mongoose runs the
    schema validators before the [pre('save')] hook, which then replaces
    the plaintext by its hash. *)
Definition save_new_password (plaintext : string) : Error + string :=
  match validate_password plaintext with
  | inl e => inl e
  | inr _ => inr (hash plaintext)
  end.

End PasswordSave.

(** ** Properties used by the statements *)

(** The cart total in the words of the spec: the sum over line items of
    quantity times product cost. *)
Definition cart_total (items : list CartItem) : Z :=
  fold_right (fun it acc => quantity it * cost (product it) + acc) 0 items.

(** The next [n] writes are stored. *)
Definition writes_ok (s : Store) (n : nat) : bool :=
  forallb (fun b => b) (firstn n (faults s)).

(** Every cart is stored under its own email, the key the code queries. *)
Definition carts_keyed (s : Store) : Prop :=
  map_Forall (fun k c => cart_email c = k) (carts s).

Definition items_positive (items : list CartItem) : Prop :=
  Forall (fun it => 0 < quantity it) items.

(** Every stored line item has a positive quantity. *)
Definition carts_positive (s : Store) : Prop :=
  map_Forall (fun _ c => items_positive (cartItems c)) (carts s).

(** The service operations a request can run. *)
Inductive op :=
| OpAdd (user : User) (productId : string) (quantity : Z)
| OpUpdate (user : User) (productId : string) (quantity : Z)
| OpDelete (user : User) (productId : string)
| OpCheckout (user : User).

Definition run_op (default_address : string) (o : op) : M Cart :=
  match o with
  | OpAdd u pid q => addProductToCart u pid q
  | OpUpdate u pid q => updateProductInCart u pid q
  | OpDelete u pid => deleteProductFromCart u pid
  | OpCheckout u => checkout default_address u
  end.

(** Requests whose added quantity is positive. *)
Definition add_positive (o : op) : Prop :=
  match o with
  | OpAdd _ _ q => 0 < q
  | _ => True
  end.

(** Stores reached from a store with positive quantities by operations
    that only add positive quantities, under any write outcomes. *)
Inductive reachable (default_address : string) : Store -> Prop :=
| reach_init s : carts_positive s -> reachable default_address s
| reach_step s o : reachable default_address s -> add_positive o ->
    reachable default_address (snd (run_op default_address o s)).

(** An alphabetic character, [a-z] or [A-Z]. *)
Definition is_alphabetic (c : ascii) : Prop :=
  (65 <= nat_of_ascii c <= 90)%nat \/ (97 <= nat_of_ascii c <= 122)%nat.

(** A numeric character, [0-9]. *)
Definition is_numeric (c : ascii) : Prop := (48 <= nat_of_ascii c <= 57)%nat.

Definition has_alphabetic (v : string) : Prop :=
  exists c, In c (list_ascii_of_string v) /\ is_alphabetic c.

Definition has_numeric (v : string) : Prop :=
  exists c, In c (list_ascii_of_string v) /\ is_numeric c.

(** The product ids of a cart's line items. *)
Definition item_ids (items : list CartItem) : list string :=
  List.map (fun it => _id (product it)) items.

(** No cart holds two line items for the same product. *)
Definition carts_nodup (s : Store) : Prop :=
  map_Forall (fun _ c => NoDup (item_ids (cartItems c))) (carts s).

(** Stores reached from a store without duplicate line items by any
    sequence of service requests, under any write outcomes. *)
Inductive served (default_address : string) : Store -> Prop :=
| served_init s : carts_nodup s -> served default_address s
| served_step s o : served default_address s ->
    served default_address (snd (run_op default_address o s)).

(** The store with its catalog replaced. *)
Definition with_products (s : Store) (ps : list Product) : Store :=
  mkStore (users s) (carts s) ps (faults s).

(** Evaluates the service functions on a store given as a record. *)
Ltac run_service :=
  cbv beta iota delta [addProductToCart updateProductInCart deleteProductFromCart checkout
                       getCartByUser saveCart saveUser createCart next_write put_cart put_user
                       findProduct findCart bind ret throw];
  cbn [users carts products faults fst snd].

(** Evaluates [addProductToCart] on a store given as a record. *)
Ltac run_add :=
  cbv beta iota delta [addProductToCart saveCart createCart next_write put_cart
                       findProduct findCart bind ret throw];
  cbn [users carts products faults].

(** The error of a second add of the same product. *)
Definition already_in_cart_error : Error :=
  ApiError 400 "Product already in cart. Use the cart sidebar to update or remove product from cart".

(** ** Sample data *)

Module Sample.

Definition default_address : string := "ADDRESS_NOT_SET".
Definition p1 : Product := mkProduct "p1" 100.
Definition p2 : Product := mkProduct "p2" 50.
Definition ann : User := mkUser "Ann" "ann@example.com" "secret123" 500 "123 Main St".
Definition ann_default : User := mkUser "Ann" "ann@example.com" "secret123" 500 default_address.
Definition ann_poor_default : User := mkUser "Ann" "ann@example.com" "secret123" 100 default_address.
Definition ann_cart : Cart := mkCart "ann@example.com" [mkCartItem p1 2].

(** Catalog [p1; p2], no cart yet, every write succeeds. *)
Definition s_empty : Store :=
  mkStore (<["ann@example.com" := ann]> ∅) ∅ [p1; p2] [].

(** Ann's cart holds two units of [p1]. *)
Definition s_cart (fs : list bool) : Store :=
  mkStore (<["ann@example.com" := ann]> ∅) (<["ann@example.com" := ann_cart]> ∅) [p1; p2] fs.

(** Ann's cart holds [p1], which is no longer in the catalog. *)
Definition s_no_catalog : Store :=
  mkStore (<["ann@example.com" := ann]> ∅) (<["ann@example.com" := ann_cart]> ∅) [] [].

End Sample.

Import Sample.

Example add_then_checkout :
  let '(r1, s1) := addProductToCart ann "p1" 2 s_empty in
  let '(r2, s2) := checkout default_address ann s1 in
  r1 = inr ann_cart /\ r2 = inr (mkCart "ann@example.com" [])
  /\ fmap walletMoney (users s2 !! "ann@example.com") = Some 300.
Proof. vm_compute. auto. Qed.

Example add_twice :
  fst (addProductToCart ann "p1" 3 (s_cart [])) =
  inl (ApiError 400 "Product already in cart. Use the cart sidebar to update or remove product from cart").
Proof. reflexivity. Qed.

Example email_re_accepts : Regex.full_match email_re "john.doe@example.com" = true.
Proof. vm_compute. reflexivity. Qed.

Example email_re_rejects : Regex.full_match email_re "john.doe@@example" = false.
Proof. vm_compute. reflexivity. Qed.

Example email_re_ip : Regex.full_match email_re "a@[10.0.0.1]" = true.
Proof. vm_compute. reflexivity. Qed.

Example password_samples :
  validate_password "secret123" = inr tt /\
  validate_password "short1" = inl (ValidationError "Password must contain at least 8 characters") /\
  validate_password "onlyletters" = inl (ValidationError "Password must contain at least one letter and one number").
Proof. vm_compute. auto. Qed.

(** ** Claims *)

(** *** Email validator *)

Lemma re_test_false : re_test email_re (JsBool false) = false.
Proof. vm_compute. reflexivity. Qed.

(** C8: the email validator as written never rejects its input: the regex
    is tested against the string of the boolean [String(value).toLowerCase()
    === false], i.e. against "false", which it does not match. *)
Theorem validate_email_never_rejects (value : string) :
  validate_email value = inr tt.
Proof.
  unfold validate_email. cbn [js_strict_eq].
  rewrite re_test_false. reflexivity.
Qed.

(** *** Password validator *)

Lemma str_match_spec (cls : ascii -> bool) (v : string) :
  str_match cls v = true <-> exists c, In c (list_ascii_of_string v) /\ cls c = true.
Proof. unfold str_match. apply existsb_exists. Qed.

Lemma is_letter_spec (c : ascii) : is_letter c = true <-> is_alphabetic c.
Proof.
  unfold is_letter, in_range, is_alphabetic.
  rewrite orb_true_iff, !andb_true_iff, !Nat.leb_le. tauto.
Qed.

Lemma is_digit_spec (c : ascii) : is_digit c = true <-> is_numeric c.
Proof.
  unfold is_digit, in_range, is_numeric.
  rewrite andb_true_iff, !Nat.leb_le. tauto.
Qed.

Lemma has_alphabetic_spec (v : string) : str_match is_letter v = true <-> has_alphabetic v.
Proof.
  rewrite str_match_spec. unfold has_alphabetic.
  split; intros [c [Hin Hc]]; exists c; split; auto; apply is_letter_spec; auto.
Qed.

Lemma has_numeric_spec (v : string) : str_match is_digit v = true <-> has_numeric v.
Proof.
  rewrite str_match_spec. unfold has_numeric.
  split; intros [c [Hin Hc]]; exists c; split; auto; apply is_digit_spec; auto.
Qed.

Lemma validate_password_ok (v : string) :
  validate_password v = inr tt <->
    (8 <= String.length v)%nat /\ has_alphabetic v /\ has_numeric v.
Proof.
  rewrite <- has_alphabetic_spec, <- has_numeric_spec.
  unfold validate_password.
  destruct (Nat.ltb_spec (String.length v) 8);
    destruct (str_match is_digit v), (str_match is_letter v); simpl;
    split; intros; try discriminate; try reflexivity; try lia; intuition congruence.
Qed.

Lemma validate_password_errors (v : string) (e : Error) :
  validate_password v = inl e -> exists m, e = ValidationError m.
Proof.
  unfold validate_password.
  destruct (Nat.ltb _ _); [intros H; injection H as <-; eauto|].
  destruct (_ || _); intros H; [injection H as <-; eauto | discriminate].
Qed.

(** C9: the password validator rejects, always with a [ValidationError],
    exactly the plaintexts shorter than 8 characters or lacking an
    alphabetic or a numeric character; a plaintext meeting the three
    conditions passes, and saving stores its hash only then. *)
Theorem validate_password_spec (v : string) :
  (validate_password v <> inr tt <->
     (String.length v < 8)%nat \/ ~ has_alphabetic v \/ ~ has_numeric v)
  /\ (forall e, validate_password v = inl e -> exists m, e = ValidationError m)
  /\ (forall (hash : string -> string) (h : string),
        save_new_password hash v = inr h <->
          ((8 <= String.length v)%nat /\ has_alphabetic v /\ has_numeric v) /\ h = hash v).
Proof.
  pose proof (validate_password_ok v) as Hok.
  split; [|split].
  - rewrite Hok. split.
    + intros H. destruct (Nat.lt_ge_cases (String.length v) 8); [left; lia|].
      right. destruct (str_match is_letter v) eqn:El.
      * apply has_alphabetic_spec in El. right. intros Hn. apply H. auto.
      * left. rewrite <- has_alphabetic_spec, El. discriminate.
    + intros [H|[H|H]] [H1 [H2 H3]]; [lia | auto | auto].
  - apply validate_password_errors.
  - intros hash h. unfold save_new_password.
    destruct (validate_password v) as [e|[]] eqn:E.
    + split; [discriminate|]. intros [Hv _]. apply Hok in Hv. discriminate.
    + split.
      * intros H. injection H as <-. split; [apply Hok; reflexivity | reflexivity].
      * intros [_ ->]. reflexivity.
Qed.

(** *** Deleting a product that is not in the cart *)

(** C1: on Ann's existing cart, which holds only [p1], deleting [p2] does
    not fail with "Product not in cart": the guard [!updateProduct] tests
    an array, which is always truthy, so the call re-saves the unchanged
    cart and returns it. *)
Theorem deleteProductFromCart_absent_no_error :
  deleteProductFromCart ann "p2" (s_cart []) = (inr ann_cart, s_cart []).
Proof. vm_compute. reflexivity. Qed.

(** *** Checkout is not atomic over its two writes *)

(** C2 (counterexample): when the cart write succeeds and the user write
    fails, the store keeps Ann's cart cleared while her wallet is not
    debited. *)
Lemma checkout_partial_write :
  let '(r, s') := checkout default_address ann (s_cart [true; false]) in
  r = inl PersistError
  /\ carts s' !! "ann@example.com" = Some (mkCart "ann@example.com" [])
  /\ fmap walletMoney (users s' !! "ann@example.com") = Some 500.
Proof. vm_compute. auto. Qed.

(** *** Non-positive quantities *)

(** C4 (counterexample): from a store with no cart, adding [p1] with
    quantity 0 stores a line item of quantity 0. *)
Lemma add_zero_quantity_stored :
  carts_positive s_empty /\
  let '(r, s') := addProductToCart ann "p1" 0 s_empty in
  r = inr (mkCart "ann@example.com" [mkCartItem p1 0])
  /\ carts s' !! "ann@example.com" = Some (mkCart "ann@example.com" [mkCartItem p1 0]).
Proof.
  split.
  - unfold carts_positive. simpl. apply map_Forall_empty.
  - vm_compute. auto.
Qed.

(** C5 (counterexample): when the product in Ann's cart is no longer in the
    catalog, update with quantity 0 fails while delete removes the item. *)
Lemma update_nonpositive_missing_product :
  fst (updateProductInCart ann "p1" 0 s_no_catalog)
    = inl (ApiError 400 "Product doesn't exist in database")
  /\ fst (deleteProductFromCart ann "p1" s_no_catalog)
    = inr (mkCart "ann@example.com" []).
Proof. vm_compute. auto. Qed.

(** C7 (counterexample): Ann has 100 in her wallet, a cart of total 200 and
    the default address; checkout fails with "Address not set", not with
    the balance error. *)
Lemma checkout_balance_not_checked_first :
  totalBill (cartItems ann_cart) > walletMoney ann_poor_default
  /\ fst (checkout default_address ann_poor_default (s_cart []))
     = inl (ApiError BAD_REQUEST "Address not set").
Proof. vm_compute. auto. Qed.

(** *** Checkout *)

Lemma bind_run {A B} (m : M A) (f : A -> M B) (s : Store) :
  bind m f s = match m s with (inl e, s') => (inl e, s') | (inr a, s') => f a s' end.
Proof. reflexivity. Qed.

Lemma totalBill_acc (items : list CartItem) (a : Z) :
  fold_left (fun sum item => sum + quantity item * cost (product item)) items a
  = a + cart_total items.
Proof.
  revert a. induction items as [|it items IH]; intros a; simpl.
  - lia.
  - rewrite IH. lia.
Qed.

Lemma totalBill_cart_total (items : list CartItem) : totalBill items = cart_total items.
Proof. unfold totalBill. rewrite totalBill_acc. lia. Qed.

(** [checkout] once the cart is found and the three guards are evaluated. *)
Lemma checkout_unfold (d : string) (u : User) (s : Store) :
  checkout d u s =
  match carts s !! email u with
  | None => (inl (ApiError NOT_FOUND "User does not have a cart"), s)
  | Some c =>
    if Nat.eqb (List.length (cartItems c)) 0 then (inl (ApiError BAD_REQUEST "Cart is Empty"), s)
    else if negb (hasSetNonDefaultAddress d u) then (inl (ApiError BAD_REQUEST "Address not set"), s)
    else if totalBill (cartItems c) >? walletMoney u then
      (inl (ApiError BAD_REQUEST "Insuficient Balance"), s)
    else
      (saveCart (mkCart (cart_email c) []);;;
       saveUser (mkUser (name u) (email u) (password u)
                   (walletMoney u - totalBill (cartItems c)) (address u));;;
       ret (mkCart (cart_email c) [])) s
  end.
Proof.
  unfold checkout, getCartByUser.
  rewrite !bind_run. cbn [findCart].
  destruct (carts s !! email u) as [c|]; [|reflexivity].
  cbn [ret].
  destruct (Nat.eqb _ _); [reflexivity|].
  destruct (negb _); [reflexivity|].
  destruct (_ >? _); reflexivity.
Qed.

(** The two writes of a successful checkout, cart first. *)
Lemma checkout_writes (c : Cart) (u' : User) (s : Store) :
  (saveCart c;;; saveUser u';;; ret c) s =
  match faults s with
  | [] => (inr c, mkStore (<[email u' := u']> (users s)) (<[cart_email c := c]> (carts s)) (products s) [])
  | false :: rest => (inl PersistError, mkStore (users s) (carts s) (products s) rest)
  | true :: [] => (inr c, mkStore (<[email u' := u']> (users s)) (<[cart_email c := c]> (carts s)) (products s) [])
  | true :: false :: rest =>
    (inl PersistError, mkStore (users s) (<[cart_email c := c]> (carts s)) (products s) rest)
  | true :: true :: rest =>
    (inr c, mkStore (<[email u' := u']> (users s)) (<[cart_email c := c]> (carts s)) (products s) rest)
  end.
Proof.
  destruct s as [us cs ps fs].
  destruct fs as [|[] [|[] rest]]; reflexivity.
Qed.

Lemma hasSetNonDefaultAddress_spec (d : string) (u : User) :
  hasSetNonDefaultAddress d u = true <-> address u <> d.
Proof.
  unfold hasSetNonDefaultAddress. rewrite negb_true_iff, String.eqb_neq. reflexivity.
Qed.

(** C3: a user whose cart exists and is non-empty, whose address is not the
    default one and whose wallet covers the cart total (the sum of quantity
    times cost) checks out: the returned cart is empty, the stored cart is
    cleared and the stored user's wallet is debited by exactly the total
    (both writes being stored). *)
Theorem checkout_success (d : string) (u : User) (c : Cart) (s : Store)
  (Hcart : carts s !! email u = Some c)
  (Hne : cartItems c <> [])
  (Haddr : address u <> d)
  (Hbal : cart_total (cartItems c) <= walletMoney u)
  (Hw : writes_ok s 2 = true) :
  exists s', checkout d u s = (inr (mkCart (cart_email c) []), s')
    /\ carts s' !! cart_email c = Some (mkCart (cart_email c) [])
    /\ users s' !! email u =
         Some (mkUser (name u) (email u) (password u)
                 (walletMoney u - cart_total (cartItems c)) (address u)).
Proof.
  rewrite checkout_unfold, Hcart.
  destruct (Nat.eqb_spec (List.length (cartItems c)) 0) as [Hl|_].
  { destruct (cartItems c); [congruence | discriminate]. }
  apply hasSetNonDefaultAddress_spec in Haddr. rewrite Haddr. simpl.
  rewrite totalBill_cart_total.
  destruct (Z.gtb_spec (cart_total (cartItems c)) (walletMoney u)) as [Hgt|_]; [lia|].
  rewrite checkout_writes.
  unfold writes_ok in Hw.
  destruct (faults s) as [|[] [|[] rest]]; simpl in Hw; try discriminate.
  all: eexists; split; [reflexivity|]; simpl.
  all: split; apply lookup_insert_eq.
Qed.

(** Ann (wallet 500, address set) with a cart of total 200 checks out. *)
Lemma checkout_success_witness :
  exists s', checkout default_address ann (s_cart []) = (inr (mkCart "ann@example.com" []), s')
    /\ carts s' !! "ann@example.com" = Some (mkCart "ann@example.com" [])
    /\ users s' !! "ann@example.com" = Some (mkUser "Ann" "ann@example.com" "secret123" 300 "123 Main St").
Proof.
  apply (checkout_success default_address ann ann_cart (s_cart [])).
  - reflexivity.
  - discriminate.
  - vm_compute. discriminate.
  - vm_compute. discriminate.
  - reflexivity.
Defined.

(** Once the cart guards and the address guard pass, checkout runs the
    balance guard and then the two writes. *)
Lemma checkout_guards_pass (d : string) (u : User) (c : Cart) (s : Store)
  (Hcart : carts s !! email u = Some c)
  (Hne : cartItems c <> [])
  (Haddr : address u <> d) :
  checkout d u s =
    if cart_total (cartItems c) >? walletMoney u then
      (inl (ApiError BAD_REQUEST "Insuficient Balance"), s)
    else
      (saveCart (mkCart (cart_email c) []);;;
       saveUser (mkUser (name u) (email u) (password u)
                   (walletMoney u - cart_total (cartItems c)) (address u));;;
       ret (mkCart (cart_email c) [])) s.
Proof.
  rewrite checkout_unfold, Hcart.
  destruct (Nat.eqb_spec (List.length (cartItems c)) 0) as [Hl|_].
  { destruct (cartItems c); [congruence | discriminate]. }
  apply hasSetNonDefaultAddress_spec in Haddr. rewrite Haddr. simpl.
  rewrite totalBill_cart_total. reflexivity.
Qed.

(** C7 (amended): for a user whose cart exists and is non-empty and whose
    address is set, checkout fails with a BadRequest exactly when the cart
    total exceeds the wallet; a total equal to the wallet checks out and
    leaves the stored wallet at 0 (both writes being stored). *)
Theorem checkout_balance_iff (d : string) (u : User) (c : Cart) (s : Store)
  (Hcart : carts s !! email u = Some c)
  (Hne : cartItems c <> [])
  (Haddr : address u <> d) :
  ((exists m, fst (checkout d u s) = inl (ApiError BAD_REQUEST m))
     <-> cart_total (cartItems c) > walletMoney u)
  /\ (cart_total (cartItems c) = walletMoney u -> writes_ok s 2 = true ->
      exists s', checkout d u s = (inr (mkCart (cart_email c) []), s')
        /\ fmap walletMoney (users s' !! email u) = Some 0).
Proof.
  rewrite (checkout_guards_pass d u c s Hcart Hne Haddr).
  destruct (Z.gtb_spec (cart_total (cartItems c)) (walletMoney u)) as [Hgt|Hle].
  - split.
    + split; [lia | intros _; eexists; reflexivity].
    + intros Heq. lia.
  - rewrite checkout_writes. split.
    + split; [|lia].
      intros [m Hm]. destruct (faults s) as [|[] [|[] rest]]; discriminate.
    + intros Heq Hw. unfold writes_ok in Hw.
      destruct (faults s) as [|[] [|[] rest]]; simpl in Hw; try discriminate.
      all: eexists; split; [reflexivity|]; simpl.
      all: rewrite lookup_insert_eq; simpl; f_equal; lia.
Qed.

(** Ann with a set address, a wallet of 500 and a cart of total 200. *)
Lemma checkout_balance_iff_witness :
  ((exists m, fst (checkout default_address ann (s_cart [])) = inl (ApiError BAD_REQUEST m))
     <-> cart_total (cartItems ann_cart) > walletMoney ann)
  /\ (cart_total (cartItems ann_cart) = walletMoney ann -> writes_ok (s_cart []) 2 = true ->
      exists s', checkout default_address ann (s_cart []) = (inr (mkCart (cart_email ann_cart) []), s')
        /\ fmap walletMoney (users s' !! email ann) = Some 0).
Proof.
  apply (checkout_balance_iff default_address ann ann_cart (s_cart [])).
  - reflexivity.
  - discriminate.
  - vm_compute. discriminate.
Defined.

(** C2 (amended): checkout evaluates all its guards before writing, so a
    failing guard changes no stored record; a successful checkout stores
    both the cleared cart and the debited user; a failed write changes no
    user, and which stored carts it leaves depends on which write failed:
    when the cart write (the first) fails nothing changes, and when the
    cart write is stored and the user write (the second) fails, the cart
    stays cleared while the wallet is not debited. *)
Theorem checkout_write_outcomes (d : string) (u : User) (s : Store) :
  let '(r, s') := checkout d u s in
  (forall st m, r = inl (ApiError st m) -> carts s' = carts s /\ users s' = users s)
  /\ (forall c', r = inr c' ->
        exists c, carts s !! email u = Some c
          /\ c' = mkCart (cart_email c) []
          /\ carts s' = <[cart_email c := c']> (carts s)
          /\ users s' = <[email u := mkUser (name u) (email u) (password u)
                                      (walletMoney u - cart_total (cartItems c)) (address u)]> (users s))
  /\ (r = inl PersistError ->
        users s' = users s
        /\ exists c, carts s !! email u = Some c
             /\ ((exists rest, faults s = false :: rest /\ carts s' = carts s)
                 \/ (exists rest, faults s = true :: false :: rest
                      /\ carts s' = <[cart_email c := mkCart (cart_email c) []]> (carts s)))).
Proof.
  rewrite checkout_unfold.
  destruct (carts s !! email u) as [c|] eqn:Hc.
  { rewrite totalBill_cart_total.
    destruct (Nat.eqb _ _); [repeat split; intros; discriminate|].
    destruct (negb _); [repeat split; intros; discriminate|].
    destruct (_ >? _); [repeat split; intros; discriminate|].
    rewrite checkout_writes.
    destruct (faults s) as [|[] [|[] rest]] eqn:Hf; simpl.
    all: repeat split; intros; try discriminate.
    all: try (match goal with H : inr _ = inr _ |- _ => injection H as <- end;
              exists c; repeat split; auto).
    all: exists c; split; [reflexivity|].
    all: first [ left; eexists; split; reflexivity
               | right; eexists; split; reflexivity ]. }
  repeat split; intros; discriminate.
Qed.

(** *** Updating and deleting line items *)

Lemma filter_refs_from_nil {A} (f : A -> bool) (i : nat) (l : list A) :
  filter_refs_from f i l = [] <-> Forall (fun x => f x = false) l.
Proof.
  revert i. induction l as [|x l IH]; intros i; simpl.
  - split; auto.
  - rewrite Forall_cons. destruct (f x) eqn:Hx.
    + split; [discriminate | intros [H _]; discriminate].
    + rewrite IH. tauto.
Qed.

(** The head of the reference list is the first matching index. *)
Lemma filter_refs_from_head {A} (f : A -> bool) (i j : nat) (rest : list nat) (l : list A) :
  filter_refs_from f i l = j :: rest ->
  exists k x, j = (i + k)%nat /\ l !! k = Some x /\ f x = true
    /\ forall k' y, (k' < k)%nat -> l !! k' = Some y -> f y = false.
Proof.
  revert i. induction l as [|x l IH]; intros i H; simpl in H; [discriminate|].
  destruct (f x) eqn:Hx.
  - injection H as <- _. exists 0%nat, x.
    split; [lia|]. split; [reflexivity|]. split; [exact Hx|].
    intros k' y Hk'. lia.
  - destruct (IH (S i) H) as [k [y [-> [Hl [Hy Hbefore]]]]].
    exists (S k), y.
    split; [lia|]. split; [exact Hl|]. split; [exact Hy|].
    intros [|k'] z Hk' Hz; simpl in Hz.
    + injection Hz as <-. exact Hx.
    + apply (Hbefore k'); auto. lia.
Qed.

Lemma item_matches_spec (pid : string) (it : CartItem) :
  item_matches pid it = true <-> _id (product it) = pid.
Proof. unfold item_matches. apply String.eqb_eq. Qed.

Lemma findProduct_present (s : Store) (p : Product) (pid : string) :
  In p (products s) -> _id p = pid ->
  exists p', List.find (fun p => String.eqb (_id p) pid) (products s) = Some p'.
Proof.
  intros Hin Hid.
  destruct (List.find _ _) as [p'|] eqn:Hf; [eauto|].
  pose proof (find_none _ _ Hf p Hin) as H. simpl in H.
  rewrite Hid, String.eqb_refl in H. discriminate.
Qed.

Lemma updateProductInCart_unfold (u : User) (pid : string) (q : Z) (s : Store) :
  updateProductInCart u pid q s =
  match List.find (fun p => String.eqb (_id p) pid) (products s) with
  | None => (inl (ApiError 400 "Product doesn't exist in database"), s)
  | Some _ =>
    match carts s !! email u with
    | None => (inl (ApiError 400 "User does not have a cart. Use POST to create cart and add a product"), s)
    | Some c =>
      match filter_refs (item_matches pid) (cartItems c) with
      | [] => (inl (ApiError 400 "Product not in cart"), s)
      | i :: _ =>
        if q <=? 0 then deleteProductFromCart u pid s
        else (saveCart (mkCart (cart_email c) (set_quantity_at i q (cartItems c)));;;
              ret (mkCart (cart_email c) (set_quantity_at i q (cartItems c)))) s
      end
    end
  end.
Proof.
  unfold updateProductInCart. rewrite bind_run. cbn [findProduct].
  destruct (List.find _ _); [|reflexivity].
  rewrite bind_run. cbn [findCart].
  destruct (carts s !! email u); [|reflexivity].
  destruct (filter_refs _ _); [reflexivity|].
  destruct (q <=? 0); reflexivity.
Qed.

(** C5 (amended): when the product is in the catalog and is a line item of
    the user's cart, updating it to a quantity [<= 0] is the same run as
    deleting it: same result and same resulting store. *)
Theorem update_nonpositive_is_delete (u : User) (pid : string) (q : Z)
  (p : Product) (c : Cart) (s : Store)
  (Hprod : In p (products s)) (Hid : _id p = pid)
  (Hcart : carts s !! email u = Some c)
  (Hin : Exists (fun it => _id (product it) = pid) (cartItems c))
  (Hq : q <= 0) :
  updateProductInCart u pid q s = deleteProductFromCart u pid s.
Proof.
  rewrite updateProductInCart_unfold.
  destruct (findProduct_present s p pid Hprod Hid) as [p' ->].
  rewrite Hcart.
  destruct (filter_refs _ _) as [|i rest] eqn:Hr.
  - exfalso. apply filter_refs_from_nil in Hr.
    apply Exists_exists in Hin as [it [Hit Hpid]].
    rewrite Forall_forall in Hr. specialize (Hr it Hit). simpl in Hr.
    apply Bool.not_true_iff_false in Hr. apply Hr, item_matches_spec, Hpid.
  - destruct (Z.leb_spec q 0); [reflexivity | lia].
Qed.

(** Ann's cart holds [p1], which is in the catalog; update to 0 is delete. *)
Lemma update_nonpositive_is_delete_witness :
  In p1 (products (s_cart [])) /\
  updateProductInCart ann "p1" 0 (s_cart []) = deleteProductFromCart ann "p1" (s_cart []).
Proof.
  split; [simpl; auto|].
  apply (update_nonpositive_is_delete ann "p1" 0 p1 ann_cart (s_cart [])).
  - simpl. auto.
  - reflexivity.
  - reflexivity.
  - constructor. reflexivity.
  - lia.
Defined.

Lemma saveCart_run (c : Cart) (s : Store) :
  (saveCart c;;; ret c) s =
  match faults s with
  | [] => (inr c, mkStore (users s) (<[cart_email c := c]> (carts s)) (products s) [])
  | true :: rest => (inr c, mkStore (users s) (<[cart_email c := c]> (carts s)) (products s) rest)
  | false :: rest => (inl PersistError, mkStore (users s) (carts s) (products s) rest)
  end.
Proof. destruct s as [us cs ps [|[] rest]]; reflexivity. Qed.

(** C10: updating a product present in an existing cart to a positive
    quantity changes at most the quantity of the first line item holding
    that product: either no cart is changed, or the stored and returned
    cart keeps its email, its length, every other line item in place and
    the product snapshot of that item, whose quantity becomes [q]. *)
Theorem update_positive_frame (u : User) (pid : string) (q : Z) (c : Cart) (s : Store)
  (Hcart : carts s !! email u = Some c)
  (Hin : Exists (fun it => _id (product it) = pid) (cartItems c))
  (Hq : 0 < q) :
  let '(r, s') := updateProductInCart u pid q s in
  carts s' = carts s
  \/ exists (i : nat) (it : CartItem) (c' : Cart),
       r = inr c'
       /\ cartItems c !! i = Some it /\ _id (product it) = pid
       /\ (forall j it', (j < i)%nat -> cartItems c !! j = Some it' -> _id (product it') <> pid)
       /\ carts s' = <[cart_email c := c']> (carts s)
       /\ cart_email c' = cart_email c
       /\ cartItems c' !! i = Some (mkCartItem (product it) q)
       /\ List.length (cartItems c') = List.length (cartItems c)
       /\ (forall j, j <> i -> cartItems c' !! j = cartItems c !! j).
Proof.
  rewrite updateProductInCart_unfold.
  destruct (List.find _ _); [|left; reflexivity].
  rewrite Hcart.
  destruct (filter_refs _ _) as [|i rest] eqn:Hr; [left; reflexivity|].
  destruct (Z.leb_spec q 0) as [Hle|_]; [lia|].
  destruct (filter_refs_from_head _ _ _ _ _ Hr) as [k [it [Hik [Hit [Hm Hbefore]]]]].
  simpl in Hik. subst k.
  rewrite saveCart_run.
  destruct (faults s) as [|[] rest']; simpl; [right.. | left; reflexivity].
  all: exists i, it, (mkCart (cart_email c) (set_quantity_at i q (cartItems c))).
  all: split; [reflexivity|].
  all: split; [exact Hit|].
  all: split; [apply item_matches_spec, Hm|].
  all: split; [intros j it' Hj Hj' Heq; apply item_matches_spec in Heq;
               rewrite (Hbefore j it' Hj Hj') in Heq; discriminate|].
  all: split; [reflexivity|].
  all: split; [reflexivity|].
  all: unfold set_quantity_at; simpl.
  all: split; [rewrite list_lookup_alter_eq, Hit; reflexivity|].
  all: split; [apply length_alter|].
  all: intros j Hj; apply list_lookup_alter_ne; auto.
Qed.

(** Ann's cart holds [p1]; setting its quantity to 5. *)
Lemma update_positive_frame_witness :
  let '(r, s') := updateProductInCart ann "p1" 5 (s_cart []) in
  carts s' = carts (s_cart [])
  \/ exists (i : nat) (it : CartItem) (c' : Cart),
       r = inr c'
       /\ cartItems ann_cart !! i = Some it /\ _id (product it) = "p1"
       /\ (forall j it', (j < i)%nat -> cartItems ann_cart !! j = Some it' -> _id (product it') <> "p1")
       /\ carts s' = <[cart_email ann_cart := c']> (carts (s_cart []))
       /\ cart_email c' = cart_email ann_cart
       /\ cartItems c' !! i = Some (mkCartItem (product it) 5)
       /\ List.length (cartItems c') = List.length (cartItems ann_cart)
       /\ (forall j, j <> i -> cartItems c' !! j = cartItems ann_cart !! j).
Proof.
  apply (update_positive_frame ann "p1" 5 ann_cart (s_cart [])).
  - reflexivity.
  - constructor. reflexivity.
  - lia.
Defined.

(** *** Adding a product *)

Lemma find_by_id (l : list Product) (p : Product) :
  NoDup (map _id l) -> In p l ->
  List.find (fun x => String.eqb (_id x) (_id p)) l = Some p.
Proof.
  induction l as [|x l IH]; intros Hnd Hin; [destruct Hin|].
  simpl in Hnd. apply NoDup_cons in Hnd as [Hx Hnd].
  simpl. destruct (String.eqb_spec (_id x) (_id p)) as [Heq|Hne].
  - destruct Hin as [<-|Hin]; [reflexivity|].
    exfalso. apply Hx. rewrite Heq. apply list_elem_of_In, in_map, Hin.
  - destruct Hin as [<-|Hin]; [congruence|]. apply IH; auto.
Qed.

Lemma filter_matches_nil (pid : string) (items : list CartItem) :
  Forall (fun it => _id (product it) <> pid) items ->
  List.filter (item_matches pid) items = [].
Proof.
  induction 1 as [|it items Hit _ IH]; simpl; [reflexivity|].
  destruct (item_matches pid it) eqn:E; [|exact IH].
  apply item_matches_spec in E. contradiction.
Qed.

Lemma filter_matches_app_length (pid : string) (items : list CartItem) (p : Product) (q : Z) :
  _id p = pid ->
  List.length (List.filter (item_matches pid) (items ++ [mkCartItem p q])) <> 0%nat.
Proof.
  intros Hid. rewrite List.filter_app, List.length_app. simpl.
  assert (item_matches pid (mkCartItem p q) = true) as -> by (apply item_matches_spec; exact Hid).
  simpl. lia.
Qed.

(** Once a cart stored under the user's email holds the product, adding it
    again fails and writes nothing. *)
Lemma add_again_fails (u : User) (pid : string) (q' : Z) (p : Product) (c : Cart) (s : Store) :
  List.find (fun x => String.eqb (_id x) pid) (products s) = Some p ->
  carts s !! email u = Some c ->
  List.length (List.filter (item_matches pid) (cartItems c)) <> 0%nat ->
  addProductToCart u pid q' s = (inl already_in_cart_error, s).
Proof.
  intros Hf Hc Hl. destruct s as [us cs ps fs]. cbn [products carts] in *.
  run_add. rewrite Hf. cbv beta iota. cbn [users carts products faults]. rewrite Hc. cbv beta iota.
  destruct (Nat.eqb_spec (List.length (List.filter (item_matches pid) (cartItems c))) 0); [contradiction|].
  reflexivity.
Qed.

(** C6: when the product is in the catalog (whose ids are unique) and not
    yet a line item of the user's cart, adding it returns the cart with the
    previous line items followed by exactly one new item holding the product
    and the quantity, stored under the user's email (both writes being
    stored); adding the same product again then fails with the BadRequest
    "Product already in cart..." and changes nothing. *)
Theorem add_new_product (u : User) (pid : string) (q : Z) (p : Product) (s : Store)
  (Hkeyed : carts_keyed s)
  (Hids : NoDup (map _id (products s)))
  (Hprod : In p (products s)) (Hid : _id p = pid)
  (Hnew : forall c, carts s !! email u = Some c ->
            Forall (fun it => _id (product it) <> pid) (cartItems c))
  (Hw : writes_ok s 2 = true) :
  exists c' s', addProductToCart u pid q s = (inr c', s')
    /\ cartItems c' = match carts s !! email u with
                      | Some c => cartItems c
                      | None => []
                      end ++ [mkCartItem p q]
    /\ cart_email c' = email u
    /\ carts s' !! email u = Some c'
    /\ forall q', addProductToCart u pid q' s' =
         (inl (ApiError 400 "Product already in cart. Use the cart sidebar to update or remove product from cart"), s').
Proof.
  assert (Hf : List.find (fun x => String.eqb (_id x) pid) (products s) = Some p)
    by (subst pid; apply find_by_id; auto).
  destruct s as [us cs ps fs]. cbn [products carts faults] in *.
  unfold carts_keyed in Hkeyed. cbn [carts] in Hkeyed.
  unfold writes_ok in Hw. cbn [faults] in Hw.
  destruct (cs !! email u) as [c|] eqn:Hc.
  - pose proof (map_Forall_lookup_1 _ _ _ _ Hkeyed Hc) as Hce. cbn beta in Hce.
    pose proof (filter_matches_nil pid (cartItems c) (Hnew c eq_refl)) as Hfil.
    run_add. rewrite Hf. cbv beta iota. cbn [users carts products faults]. rewrite Hc. cbv beta iota. rewrite Hfil. cbn [List.length Nat.eqb negb].
    destruct fs as [|[] rest]; cbn in Hw; try discriminate.
    all: eexists _, _; split; [reflexivity|].
    all: split; [reflexivity|].
    all: split; [exact Hce|].
    all: cbn [carts]; rewrite Hce; split; [apply lookup_insert_eq|].
    all: intros q'; eapply (add_again_fails u pid q' p); cbn [products carts];
         [exact Hf | apply lookup_insert_eq | apply filter_matches_app_length, Hid].
  - run_add. rewrite Hf. cbv beta iota. cbn [users carts products faults]. rewrite Hc. cbv beta iota.
    destruct fs as [|[] [|[] rest]]; cbn in Hw; try discriminate.
    all: cbn [faults carts users products]; cbn [List.filter List.length Nat.eqb negb cartItems cart_email].
    all: eexists _, _; split; [reflexivity|].
    all: split; [reflexivity|].
    all: split; [reflexivity|].
    all: cbn [carts]; rewrite insert_insert_eq; split; [apply lookup_insert_eq|].
    all: intros q'; eapply (add_again_fails u pid q' p); cbn [products carts];
         [exact Hf | apply lookup_insert_eq | apply (filter_matches_app_length pid []), Hid].
Qed.

(** Adding [p1] to Ann's empty store. *)
Lemma add_new_product_witness :
  exists c' s', addProductToCart ann "p1" 3 s_empty = (inr c', s')
    /\ cartItems c' = match carts s_empty !! email ann with
                      | Some c => cartItems c
                      | None => []
                      end ++ [mkCartItem p1 3]
    /\ cart_email c' = email ann
    /\ carts s' !! email ann = Some c'
    /\ forall q', addProductToCart ann "p1" q' s' =
         (inl (ApiError 400 "Product already in cart. Use the cart sidebar to update or remove product from cart"), s').
Proof.
  apply (add_new_product ann "p1" 3 p1 s_empty).
  - unfold carts_keyed. simpl. apply map_Forall_empty.
  - simpl. apply (bool_decide_unpack _). vm_compute. reflexivity.
  - simpl. auto.
  - reflexivity.
  - intros c H. discriminate H.
  - reflexivity.
Defined.

(** *** Positive quantities *)

Lemma items_positive_filter (f : CartItem -> bool) (l : list CartItem) :
  items_positive l -> items_positive (List.filter f l).
Proof.
  unfold items_positive. rewrite !List.Forall_forall.
  intros H x Hx. apply filter_In in Hx as [Hx _]. auto.
Qed.

Lemma items_positive_alter (i : nat) (q : Z) (l : list CartItem) :
  0 < q -> items_positive l -> items_positive (set_quantity_at i q l).
Proof.
  intros Hq H. unfold set_quantity_at, items_positive.
  apply Forall_alter; auto.
Qed.

Lemma carts_positive_insert (us : gmap string User) (cs : gmap string Cart)
  (ps : list Product) (fs : list bool) (k : string) (c : Cart) :
  carts_positive (mkStore us cs ps fs) -> items_positive (cartItems c) ->
  carts_positive (mkStore us (<[k := c]> cs) ps fs).
Proof. unfold carts_positive. simpl. intros. apply map_Forall_insert_2; auto. Qed.

Lemma carts_positive_lookup (s : Store) (k : string) (c : Cart) :
  carts_positive s -> carts s !! k = Some c -> items_positive (cartItems c).
Proof. intros H Hc. exact (map_Forall_lookup_1 _ _ _ _ H Hc). Qed.

(** The carts of a store given as a record, once its faults change. *)
Lemma carts_positive_faults (us : gmap string User) (cs : gmap string Cart)
  (ps : list Product) (fs fs' : list bool) :
  carts_positive (mkStore us cs ps fs) -> carts_positive (mkStore us cs ps fs').
Proof. unfold carts_positive. simpl. auto. Qed.

Ltac run_ops :=
  cbv beta iota delta [addProductToCart updateProductInCart deleteProductFromCart checkout
                       getCartByUser saveCart saveUser createCart next_write put_cart put_user
                       findProduct findCart bind ret throw];
  cbn [users carts products faults fst snd].

Ltac solve_positive :=
  repeat first
    [ assumption
    | apply carts_positive_insert
    | apply items_positive_filter
    | apply items_positive_alter
    | match goal with H : (?q <=? 0) = false |- 0 < ?q => apply Z.leb_gt, H end
    | apply Forall_app_2
    | apply Forall_nil_2
    | apply Forall_cons_2
    | match goal with
      | H : carts_positive (mkStore ?us ?cs ?ps ?fs)
        |- carts_positive (mkStore ?us ?cs ?ps ?fs') =>
          exact (carts_positive_faults us cs ps fs fs' H)
      end
    | match goal with
      | H : carts_positive (mkStore ?us ?cs ?ps ?fs), Hc : ?cs !! ?k = Some ?c
        |- context [cartItems ?c] =>
          exact (carts_positive_lookup (mkStore us cs ps fs) k c H Hc)
      end
    | progress cbn [cartItems quantity] ].

Lemma delete_preserves_positive (u : User) (pid : string) (s : Store) :
  carts_positive s -> carts_positive (snd (deleteProductFromCart u pid s)).
Proof.
  intros H. destruct s as [us cs ps fs].
  run_ops. repeat case_match; simplify_eq; cbn [carts faults users products] in *; solve_positive.
Qed.

Lemma add_preserves_positive (u : User) (pid : string) (q : Z) (s : Store) :
  0 < q -> carts_positive s -> carts_positive (snd (addProductToCart u pid q s)).
Proof.
  intros Hq H. destruct s as [us cs ps fs].
  run_ops. repeat case_match; simplify_eq; cbn [carts faults users products] in *; solve_positive.
Qed.

Lemma update_preserves_positive (u : User) (pid : string) (q : Z) (s : Store) :
  carts_positive s -> carts_positive (snd (updateProductInCart u pid q s)).
Proof.
  intros H. destruct s as [us cs ps fs].
  run_ops. repeat case_match; simplify_eq; cbn [carts faults users products] in *; solve_positive.
Qed.

Lemma checkout_preserves_positive (d : string) (u : User) (s : Store) :
  carts_positive s -> carts_positive (snd (checkout d u s)).
Proof.
  intros H. destruct s as [us cs ps fs].
  run_ops. repeat case_match; simplify_eq; cbn [carts faults users products] in *; solve_positive.
Qed.

Lemma run_op_preserves_positive (d : string) (o : op) (s : Store) :
  add_positive o -> carts_positive s -> carts_positive (snd (run_op d o s)).
Proof.
  destruct o as [u pid q|u pid q|u pid|u]; simpl; intros Ho H.
  - apply add_preserves_positive; assumption.
  - apply update_preserves_positive; assumption.
  - apply delete_preserves_positive; assumption.
  - apply checkout_preserves_positive; assumption.
Qed.

(** C4 (amended): starting from a store whose line items all have positive
    quantities, every store reached by add, update, delete and checkout
    requests, whatever the outcome of the writes, keeps every line item
    positive, provided each add request carries a positive quantity (add
    itself stores the quantity it is given; update to [<= 0] removes the
    item instead). *)
Theorem reachable_carts_positive (d : string) (s : Store) :
  reachable d s -> carts_positive s.
Proof.
  induction 1 as [s Hs | s o _ IH Ho].
  - exact Hs.
  - apply run_op_preserves_positive; assumption.
Qed.

(** From the empty store, add [p1] twice over, update it to 0, then check out. *)
Lemma reachable_carts_positive_witness :
  carts_positive
    (snd (run_op default_address (OpUpdate ann "p1" 0)
       (snd (run_op default_address (OpAdd ann "p1" 2) s_empty)))).
Proof.
  apply (reachable_carts_positive default_address).
  apply reach_step; [|exact I].
  apply reach_step; [|simpl; lia].
  apply reach_init. unfold carts_positive. simpl. apply map_Forall_empty.
Defined.

(** ** Further properties of the cart service *)

Lemma find_product_none (ps : list Product) (pid : string) :
  Forall (fun p => _id p <> pid) ps ->
  List.find (fun p => String.eqb (_id p) pid) ps = None.
Proof.
  induction 1 as [|p ps Hp _ IH]; simpl; [reflexivity|].
  destruct (String.eqb_spec (_id p) pid); [contradiction | exact IH].
Qed.

(** X1: a product id absent from the catalog makes both add and update fail
    with "Product doesn't exist in database" before anything is read or
    written: the store is returned unchanged (no cart is created). *)
Theorem missing_product_rejected (u : User) (pid : string) (q : Z) (s : Store)
  (Hnone : Forall (fun p => _id p <> pid) (products s)) :
  addProductToCart u pid q s = (inl (ApiError 400 "Product doesn't exist in database"), s)
  /\ updateProductInCart u pid q s = (inl (ApiError 400 "Product doesn't exist in database"), s).
Proof.
  apply find_product_none in Hnone.
  destruct s as [us cs ps fs]. cbn [products] in Hnone.
  split; run_service; rewrite Hnone; reflexivity.
Qed.

Lemma missing_product_rejected_witness :
  addProductToCart ann "p9" 1 (s_cart []) = (inl (ApiError 400 "Product doesn't exist in database"), s_cart [])
  /\ updateProductInCart ann "p9" 1 (s_cart []) = (inl (ApiError 400 "Product doesn't exist in database"), s_cart []).
Proof.
  apply missing_product_rejected.
  simpl. repeat constructor; simpl; discriminate.
Defined.

(** X2: a user without a cart gets one created lazily by add; if that
    creation is stored but the following save of the filled cart fails,
    an empty cart stays stored under the user's email. *)
Theorem add_created_cart_survives_failed_save (u : User) (pid : string) (q : Z)
  (p : Product) (s : Store) (rest : list bool)
  (Hprod : List.find (fun p => String.eqb (_id p) pid) (products s) = Some p)
  (Hnocart : carts s !! email u = None)
  (Hfaults : faults s = true :: false :: rest) :
  addProductToCart u pid q s =
    (inl PersistError,
     mkStore (users s) (<[email u := mkCart (email u) []]> (carts s)) (products s) rest).
Proof.
  destruct s as [us cs ps fs]. cbn [products carts faults] in *. subst fs.
  run_service. rewrite Hprod. cbv beta iota. cbn [carts]. rewrite Hnocart.
  reflexivity.
Qed.

Lemma add_created_cart_survives_failed_save_witness :
  addProductToCart ann "p1" 2 (mkStore (users s_empty) (carts s_empty) (products s_empty) [true; false]) =
    (inl PersistError,
     mkStore (users s_empty) (<[email ann := mkCart (email ann) []]> (carts s_empty)) (products s_empty) []).
Proof.
  apply (add_created_cart_survives_failed_save ann "p1" 2 p1
    (mkStore (users s_empty) (carts s_empty) (products s_empty) [true; false]) []); reflexivity.
Defined.

(** X3: when creating the missing cart fails, [Cart.create] rejects and
    add fails with the driver's error; no cart is stored. *)
Theorem add_cart_creation_fails (u : User) (pid : string) (q : Z)
  (p : Product) (s : Store) (rest : list bool)
  (Hprod : List.find (fun p => String.eqb (_id p) pid) (products s) = Some p)
  (Hnocart : carts s !! email u = None)
  (Hfaults : faults s = false :: rest) :
  addProductToCart u pid q s =
    (inl PersistError, mkStore (users s) (carts s) (products s) rest).
Proof.
  destruct s as [us cs ps fs]. cbn [products carts faults] in *. subst fs.
  run_service. rewrite Hprod. cbv beta iota. cbn [carts]. rewrite Hnocart.
  reflexivity.
Qed.

Lemma add_cart_creation_fails_witness :
  addProductToCart ann "p1" 2 (mkStore (users s_empty) (carts s_empty) (products s_empty) [false]) =
    (inl PersistError,
     mkStore (users s_empty) (carts s_empty) (products s_empty) []).
Proof.
  apply (add_cart_creation_fails ann "p1" 2 p1
    (mkStore (users s_empty) (carts s_empty) (products s_empty) [false]) []); reflexivity.
Defined.

(** X14: the [if (!userCart)] test after [Cart.create] never fires, since
    an awaited [create] either yields the document or throws; add never
    fails with status 500, whatever the store and the write outcomes. *)
Theorem add_never_internal_error (u : User) (pid : string) (q : Z) (s : Store) (m : string) :
  fst (addProductToCart u pid q s) <> inl (ApiError INTERNAL_SERVER_ERROR m).
Proof.
  unfold INTERNAL_SERVER_ERROR.
  destruct s as [us cs ps fs]. run_add.
  repeat (case_match; cbn [fst] in *; try congruence).
Qed.

(** X4: adding a product that is in the catalog and already a line item
    of the user's cart fails with "Product already in cart..." and changes
    nothing. A line item whose product has left the catalog fails the
    catalog check first (X1). *)
Theorem add_duplicate_rejected (u : User) (pid : string) (q : Z) (p : Product) (c : Cart) (s : Store)
  (Hprod : List.find (fun p => String.eqb (_id p) pid) (products s) = Some p)
  (Hcart : carts s !! email u = Some c)
  (Hin : Exists (fun it => _id (product it) = pid) (cartItems c)) :
  addProductToCart u pid q s = (inl already_in_cart_error, s).
Proof.
  destruct s as [us cs ps fs]. cbn [products carts] in *.
  run_service. rewrite Hprod. cbv beta iota. cbn [carts]. rewrite Hcart. cbv beta iota.
  destruct (Nat.eqb_spec (List.length (List.filter (item_matches pid) (cartItems c))) 0) as [Hl|]; [|reflexivity].
  exfalso. apply length_zero_iff_nil in Hl.
  apply List.Exists_exists in Hin as [it [Hit Hid]].
  assert (In it (List.filter (item_matches pid) (cartItems c))) as Hf
    by (apply filter_In; split; [exact Hit | apply item_matches_spec, Hid]).
  rewrite Hl in Hf. destruct Hf.
Qed.

Lemma add_duplicate_rejected_witness :
  addProductToCart ann "p1" 7 (s_cart []) = (inl already_in_cart_error, s_cart []).
Proof.
  apply (add_duplicate_rejected ann "p1" 7 p1 ann_cart).
  - reflexivity.
  - reflexivity.
  - constructor. reflexivity.
Defined.

(** X5: with the product in the catalog, update fails with the BadRequest
    "User does not have a cart. Use POST to create cart and add a product"
    when the user has no cart, and with "Product not in cart" when the cart
    holds no line item for the product; neither case writes anything. *)
Theorem update_guard_errors (u : User) (pid : string) (q : Z) (p : Product) (s : Store)
  (Hprod : List.find (fun p => String.eqb (_id p) pid) (products s) = Some p) :
  (carts s !! email u = None ->
     updateProductInCart u pid q s =
       (inl (ApiError 400 "User does not have a cart. Use POST to create cart and add a product"), s))
  /\ (forall c, carts s !! email u = Some c ->
        Forall (fun it => _id (product it) <> pid) (cartItems c) ->
        updateProductInCart u pid q s = (inl (ApiError 400 "Product not in cart"), s)).
Proof.
  split.
  - intros Hc. rewrite updateProductInCart_unfold, Hprod, Hc. reflexivity.
  - intros c Hc Hnone. rewrite updateProductInCart_unfold, Hprod, Hc.
    assert (filter_refs (item_matches pid) (cartItems c) = []) as ->; [|reflexivity].
    apply filter_refs_from_nil. eapply Forall_impl; [exact Hnone|].
    intros it Hit. apply Bool.not_true_iff_false. intros H. apply Hit, item_matches_spec, H.
Qed.

Lemma update_guard_errors_witness :
  updateProductInCart ann "p2" 4 (s_empty) =
    (inl (ApiError 400 "User does not have a cart. Use POST to create cart and add a product"), s_empty)
  /\ updateProductInCart ann "p2" 4 (s_cart []) = (inl (ApiError 400 "Product not in cart"), s_cart []).
Proof.
  split.
  - apply (update_guard_errors ann "p2" 4 p2 s_empty); reflexivity.
  - apply (update_guard_errors ann "p2" 4 p2 (s_cart [])) with ann_cart; [reflexivity | reflexivity |].
    constructor; [simpl; discriminate | constructor].
Defined.

(** X6: delete for a user without a cart fails with the BadRequest
    "User does not have a cart" and writes nothing. *)
Theorem delete_no_cart (u : User) (pid : string) (s : Store)
  (Hc : carts s !! email u = None) :
  deleteProductFromCart u pid s = (inl (ApiError 400 "User does not have a cart"), s).
Proof.
  destruct s as [us cs ps fs]. cbn [carts] in Hc.
  run_service. rewrite Hc. reflexivity.
Qed.

Lemma delete_no_cart_witness :
  deleteProductFromCart ann "p1" s_empty = (inl (ApiError 400 "User does not have a cart"), s_empty).
Proof. apply delete_no_cart. reflexivity. Defined.

(** [deleteProductFromCart] once the cart is found. *)
Lemma deleteProductFromCart_unfold (u : User) (pid : string) (s : Store) :
  deleteProductFromCart u pid s =
  match carts s !! email u with
  | None => (inl (ApiError 400 "User does not have a cart"), s)
  | Some c =>
    (saveCart (mkCart (cart_email c) (List.filter (fun item => negb (item_matches pid item)) (cartItems c)));;;
     ret (mkCart (cart_email c) (List.filter (fun item => negb (item_matches pid item)) (cartItems c)))) s
  end.
Proof.
  unfold deleteProductFromCart. rewrite bind_run. cbn [findCart].
  destruct (carts s !! email u); reflexivity.
Qed.

(** X7: a successful delete stores and returns the user's cart with every
    line item of the product removed and every other line item kept, in
    its original order. *)
Theorem delete_success_shape (u : User) (pid : string) (s : Store) (c' : Cart) :
  fst (deleteProductFromCart u pid s) = inr c' ->
  exists c, carts s !! email u = Some c
    /\ cart_email c' = cart_email c
    /\ Forall (fun it => _id (product it) <> pid) (cartItems c')
    /\ cartItems c' = List.filter (fun it => negb (String.eqb (_id (product it)) pid)) (cartItems c)
    /\ carts (snd (deleteProductFromCart u pid s)) !! cart_email c = Some c'.
Proof.
  rewrite deleteProductFromCart_unfold.
  destruct (carts s !! email u) as [c|] eqn:Hc; [|discriminate].
  rewrite saveCart_run.
  destruct (faults s) as [|[] rest]; cbn [fst snd carts]; intros H; try discriminate.
  all: injection H as <-; exists c; split; [reflexivity|]; split; [reflexivity|].
  all: split; [|split; [reflexivity | apply lookup_insert_eq]].
  all: cbn [cartItems]; apply List.Forall_forall; intros it Hit.
  all: apply filter_In in Hit as [_ Hit]; apply negb_true_iff in Hit.
  all: intros Heq; apply item_matches_spec in Heq; congruence.
Qed.

Lemma delete_success_shape_witness :
  exists c, carts (s_cart []) !! email ann = Some c
    /\ cart_email (mkCart "ann@example.com" []) = cart_email c
    /\ Forall (fun it => _id (product it) <> "p1") (cartItems (mkCart "ann@example.com" []))
    /\ cartItems (mkCart "ann@example.com" []) =
         List.filter (fun it => negb (String.eqb (_id (product it)) "p1")) (cartItems c)
    /\ carts (snd (deleteProductFromCart ann "p1" (s_cart []))) !! cart_email c
         = Some (mkCart "ann@example.com" []).
Proof. apply delete_success_shape. reflexivity. Defined.

(** X8: checkout fails without writing anything, and in this order of
    precedence: NotFound "User does not have a cart" when there is no cart,
    "Cart is Empty" for an empty cart whatever the address and balance, and
    "Address not set" for a non-empty cart when the address is the default
    one, whatever the balance. *)
Theorem checkout_guard_errors (d : string) (u : User) (s : Store) :
  (carts s !! email u = None ->
     checkout d u s = (inl (ApiError NOT_FOUND "User does not have a cart"), s))
  /\ (forall c, carts s !! email u = Some c -> cartItems c = [] ->
        checkout d u s = (inl (ApiError BAD_REQUEST "Cart is Empty"), s))
  /\ (forall c, carts s !! email u = Some c -> cartItems c <> [] -> address u = d ->
        checkout d u s = (inl (ApiError BAD_REQUEST "Address not set"), s)).
Proof.
  rewrite checkout_unfold.
  split; [intros ->; reflexivity|]. split.
  - intros c -> Hnil. rewrite Hnil. reflexivity.
  - intros c -> Hne Ha.
    destruct (Nat.eqb_spec (List.length (cartItems c)) 0) as [Hl|_].
    { destruct (cartItems c); [congruence | discriminate]. }
    unfold hasSetNonDefaultAddress. rewrite Ha, String.eqb_refl. reflexivity.
Qed.

Lemma checkout_guard_errors_witness :
  checkout default_address ann s_empty = (inl (ApiError NOT_FOUND "User does not have a cart"), s_empty)
  /\ checkout default_address ann_poor_default (s_cart [])
       = (inl (ApiError BAD_REQUEST "Address not set"), s_cart []).
Proof.
  split.
  - apply (checkout_guard_errors default_address ann s_empty). reflexivity.
  - apply (checkout_guard_errors default_address ann_poor_default (s_cart [])) with ann_cart.
    + reflexivity.
    + discriminate.
    + reflexivity.
Defined.

(** X9: delete and checkout never read the product catalog: their results
    and the records they store are the same whatever the catalog holds
    (checkout prices the cart from the product snapshots in its line items). *)
Theorem delete_checkout_ignore_catalog (d : string) (u : User) (pid : string)
  (s : Store) (ps : list Product) :
  deleteProductFromCart u pid (with_products s ps)
    = (fst (deleteProductFromCart u pid s), with_products (snd (deleteProductFromCart u pid s)) ps)
  /\ checkout d u (with_products s ps)
    = (fst (checkout d u s), with_products (snd (checkout d u s)) ps).
Proof.
  destruct s as [us cs ps0 fs]. unfold with_products. cbn [users carts faults].
  split.
  - rewrite !deleteProductFromCart_unfold. cbn [carts].
    destruct (cs !! email u); [|reflexivity].
    rewrite !saveCart_run. cbn [faults users carts].
    destruct fs as [|[] fs]; reflexivity.
  - rewrite !checkout_unfold. cbn [carts].
    destruct (cs !! email u); [|reflexivity].
    destruct (Nat.eqb _ _); [reflexivity|].
    destruct (negb _); [reflexivity|].
    destruct (_ >? _); [reflexivity|].
    rewrite !checkout_writes. cbn [faults users carts].
    destruct fs as [|[] [|[] fs]]; reflexivity.
Qed.

Lemma filter_idem {A} (f : A -> bool) (l : list A) :
  List.filter f (List.filter f l) = List.filter f l.
Proof.
  induction l as [|x l IH]; simpl; [reflexivity|].
  destruct (f x) eqn:E; simpl; [rewrite E, IH | exact IH]; reflexivity.
Qed.

Lemma carts_keyed_lookup (s : Store) (k : string) (c : Cart) :
  carts_keyed s -> carts s !! k = Some c -> cart_email c = k.
Proof. intros H Hc. exact (map_Forall_lookup_1 _ _ _ _ H Hc). Qed.

(** X10: deleting a product twice leaves the carts as deleting it once, with
    the same result, when carts are stored under their own email and both
    writes are stored. *)
Theorem delete_idempotent (u : User) (pid : string) (s : Store)
  (Hkeyed : carts_keyed s) (Hw : writes_ok s 2 = true) :
  let '(r1, s1) := deleteProductFromCart u pid s in
  let '(r2, s2) := deleteProductFromCart u pid s1 in
  r2 = r1 /\ carts s2 = carts s1.
Proof.
  rewrite deleteProductFromCart_unfold.
  destruct (carts s !! email u) as [c|] eqn:Hc.
  - pose proof (carts_keyed_lookup s _ c Hkeyed Hc) as Hce.
    rewrite saveCart_run. unfold writes_ok in Hw.
    destruct s as [us cs ps fs]. cbn [faults carts] in *.
    destruct fs as [|[] [|[] rest]]; cbn in Hw; try discriminate.
    all: cbv beta iota; rewrite deleteProductFromCart_unfold; cbn [carts faults users products].
    all: rewrite Hce, lookup_insert_eq; cbv beta iota; rewrite saveCart_run; cbn [cartItems cart_email carts faults].
    all: rewrite filter_idem, insert_insert_eq; split; reflexivity.
  - cbv beta iota. rewrite deleteProductFromCart_unfold, Hc. split; reflexivity.
Qed.

Lemma delete_idempotent_witness :
  let '(r1, s1) := deleteProductFromCart ann "p1" (s_cart []) in
  let '(r2, s2) := deleteProductFromCart ann "p1" s1 in
  r2 = r1 /\ carts s2 = carts s1.
Proof.
  apply delete_idempotent.
  - unfold carts_keyed, s_cart; cbn [carts].
    apply map_Forall_insert_2; [reflexivity | apply map_Forall_empty].
  - reflexivity.
Defined.

Lemma filter_not_matching_app (pid : string) (items : list CartItem) (p : Product) (q : Z) :
  Forall (fun it => _id (product it) <> pid) items -> _id p = pid ->
  List.filter (fun item => negb (item_matches pid item)) (items ++ [mkCartItem p q]) = items.
Proof.
  intros Hall Hid. rewrite List.filter_app. simpl.
  assert (item_matches pid (mkCartItem p q) = true) as -> by (apply item_matches_spec; exact Hid).
  simpl. rewrite app_nil_r.
  induction Hall as [|it items Hit _ IH]; simpl; [reflexivity|].
  destruct (item_matches pid it) eqn:E.
  - apply item_matches_spec in E. contradiction.
  - simpl. rewrite IH. reflexivity.
Qed.

(** X11: adding a catalog product that is not in the user's existing cart
    and then deleting it returns the cart's original line items and leaves
    the stored carts as they were (carts stored under their own email, the
    two writes stored). *)
Theorem add_then_delete_restores (u : User) (pid : string) (q : Z) (p : Product) (c : Cart) (s : Store)
  (Hkeyed : carts_keyed s)
  (Hprod : List.find (fun p => String.eqb (_id p) pid) (products s) = Some p)
  (Hcart : carts s !! email u = Some c)
  (Hnew : Forall (fun it => _id (product it) <> pid) (cartItems c))
  (Hw : writes_ok s 2 = true) :
  let '(_, s1) := addProductToCart u pid q s in
  let '(r2, s2) := deleteProductFromCart u pid s1 in
  r2 = inr c /\ carts s2 = carts s.
Proof.
  pose proof (carts_keyed_lookup s _ c Hkeyed Hcart) as Hce.
  pose proof (find_some _ _ Hprod) as [_ Hpid]. apply String.eqb_eq in Hpid.
  destruct s as [us cs ps fs]. cbn [products carts faults] in *.
  unfold writes_ok in Hw. cbn [faults] in Hw.
  run_add. rewrite Hprod. cbv beta iota. cbn [carts]. rewrite Hcart. cbv beta iota.
  rewrite (filter_matches_nil pid (cartItems c) Hnew). cbn [List.length Nat.eqb negb].
  destruct fs as [|[] [|[] rest]]; cbn in Hw; try discriminate.
  all: cbv beta iota; cbn [carts faults users products fst snd].
  all: rewrite deleteProductFromCart_unfold; cbn [carts faults users products].
  all: rewrite Hce, lookup_insert_eq; cbv beta iota; rewrite saveCart_run; cbn [cartItems cart_email carts faults].
  all: rewrite (filter_not_matching_app pid (cartItems c) p q Hnew Hpid), insert_insert_eq.
  all: destruct c as [ce items]; cbn [cart_email cartItems] in *; subst ce.
  all: split; [reflexivity | apply insert_id, Hcart].
Qed.

Lemma add_then_delete_restores_witness :
  let '(_, s1) := addProductToCart ann "p2" 1 (s_cart []) in
  let '(r2, s2) := deleteProductFromCart ann "p2" s1 in
  r2 = inr ann_cart /\ carts s2 = carts (s_cart []).
Proof.
  apply (add_then_delete_restores ann "p2" 1 p2 ann_cart (s_cart [])).
  - unfold carts_keyed, s_cart; cbn [carts].
    apply map_Forall_insert_2; [reflexivity | apply map_Forall_empty].
  - reflexivity.
  - reflexivity.
  - constructor; [simpl; discriminate | constructor].
  - reflexivity.
Defined.

(** X12: right after a successful checkout, a second checkout of the same
    user fails with "Cart is Empty" and writes nothing (carts stored under
    their own email). *)
Theorem checkout_twice_empty (d : string) (u : User) (s s1 : Store) (c1 : Cart)
  (Hkeyed : carts_keyed s)
  (Hok : checkout d u s = (inr c1, s1)) :
  checkout d u s1 = (inl (ApiError BAD_REQUEST "Cart is Empty"), s1).
Proof.
  rewrite checkout_unfold in Hok.
  destruct (carts s !! email u) as [c|] eqn:Hc; [|discriminate].
  pose proof (carts_keyed_lookup s _ c Hkeyed Hc) as Hce.
  destruct (Nat.eqb _ _); [discriminate|].
  destruct (negb _); [discriminate|].
  destruct (_ >? _); [discriminate|].
  rewrite checkout_writes in Hok.
  destruct s as [us cs ps fs]. cbn [faults carts users products] in *.
  rewrite checkout_unfold.
  destruct fs as [|[] [|[] rest]]; try discriminate; injection Hok as <- <-;
    cbn [carts]; rewrite Hce, lookup_insert_eq; reflexivity.
Qed.

Lemma checkout_twice_empty_witness :
  checkout default_address ann (snd (checkout default_address ann (s_cart [])))
    = (inl (ApiError BAD_REQUEST "Cart is Empty"), snd (checkout default_address ann (s_cart []))).
Proof.
  apply (checkout_twice_empty default_address ann (s_cart []) _ (mkCart "ann@example.com" [])).
  - unfold carts_keyed, s_cart; cbn [carts].
    apply map_Forall_insert_2; [reflexivity | apply map_Forall_empty].
  - vm_compute. reflexivity.
Defined.

Lemma item_ids_alter (i : nat) (q : Z) (items : list CartItem) :
  item_ids (set_quantity_at i q items) = item_ids items.
Proof.
  unfold set_quantity_at, item_ids.
  revert i. induction items as [|it items IH]; intros [|i]; try reflexivity.
  cbn [alter list_alter List.map]. f_equal. apply IH.
Qed.

Lemma nodup_item_ids_filter (f : CartItem -> bool) (items : list CartItem) :
  NoDup (item_ids items) -> NoDup (item_ids (List.filter f items)).
Proof.
  unfold item_ids. induction items as [|it items IH]; simpl; intros Hnd; [exact Hnd|].
  apply NoDup_cons in Hnd as [Hnot Hnd].
  destruct (f it); simpl; [|auto].
  apply NoDup_cons. split; [|auto].
  intros Hin. apply Hnot. apply list_elem_of_In in Hin. apply list_elem_of_In.
  apply in_map_iff in Hin as [x [Hx Hin]]. apply filter_In in Hin as [Hin _].
  apply in_map_iff. eauto.
Qed.

Lemma nodup_item_ids_add (pid : string) (items : list CartItem) (p : Product) (q : Z) :
  NoDup (item_ids items) ->
  List.length (List.filter (item_matches pid) items) = 0%nat ->
  _id p = pid ->
  NoDup (item_ids (items ++ [mkCartItem p q])).
Proof.
  intros Hnd Hl Hid. unfold item_ids in *. rewrite List.map_app. simpl.
  apply length_zero_iff_nil in Hl.
  apply NoDup_app. split; [exact Hnd|]. split; [|apply NoDup_singleton].
  intros x Hx Hx'. apply list_elem_of_singleton in Hx'. subst x.
  apply list_elem_of_In, in_map_iff in Hx as [it [Hit Hin]].
  assert (In it (List.filter (item_matches pid) items)) as Hf
    by (apply filter_In; split; [exact Hin | apply item_matches_spec; congruence]).
  rewrite Hl in Hf. destruct Hf.
Qed.

Lemma carts_nodup_insert (us : gmap string User) (cs : gmap string Cart)
  (ps : list Product) (fs : list bool) (k : string) (c : Cart) :
  carts_nodup (mkStore us cs ps fs) -> NoDup (item_ids (cartItems c)) ->
  carts_nodup (mkStore us (<[k := c]> cs) ps fs).
Proof. unfold carts_nodup. simpl. intros. apply map_Forall_insert_2; auto. Qed.

Lemma carts_nodup_faults (us : gmap string User) (cs : gmap string Cart)
  (ps : list Product) (fs fs' : list bool) :
  carts_nodup (mkStore us cs ps fs) -> carts_nodup (mkStore us cs ps fs').
Proof. unfold carts_nodup. simpl. auto. Qed.

Lemma carts_nodup_lookup (s : Store) (k : string) (c : Cart) :
  carts_nodup s -> carts s !! k = Some c -> NoDup (item_ids (cartItems c)).
Proof. intros H Hc. exact (map_Forall_lookup_1 _ _ _ _ H Hc). Qed.

Ltac solve_nodup :=
  repeat first
    [ assumption
    | apply carts_nodup_insert
    | apply nodup_item_ids_filter
    | progress rewrite item_ids_alter
    | match goal with
      | H : List.find _ _ = Some ?p, Hl : negb (Nat.eqb (List.length (List.filter (item_matches ?pid) ?l)) 0) = false
        |- NoDup (item_ids (?l ++ [mkCartItem ?p _])) =>
          apply (nodup_item_ids_add pid);
          [ | apply negb_false_iff, Nat.eqb_eq in Hl; exact Hl
            | apply find_some in H as [_ H]; apply String.eqb_eq in H; exact H ]
      end
    | match goal with
      | H : carts_nodup (mkStore ?us ?cs ?ps ?fs)
        |- carts_nodup (mkStore ?us ?cs ?ps ?fs') =>
          exact (carts_nodup_faults us cs ps fs fs' H)
      end
    | match goal with
      | H : carts_nodup (mkStore ?us ?cs ?ps ?fs), Hc : ?cs !! ?k = Some ?c
        |- context [cartItems ?c] =>
          exact (carts_nodup_lookup (mkStore us cs ps fs) k c H Hc)
      end
    | apply NoDup_nil_2
    | progress cbn [cartItems] ].

Lemma run_op_preserves_nodup (d : string) (o : op) (s : Store) :
  carts_nodup s -> carts_nodup (snd (run_op d o s)).
Proof.
  intros H. destruct s as [us cs ps fs].
  destruct o; simpl; run_service; repeat case_match; simplify_eq;
    cbn [carts faults users products] in *; solve_nodup.
Qed.

(** X13: no cart ever holds two line items for the same product: starting
    from a store without such duplicates, any sequence of add, update,
    delete and checkout requests, under any write outcomes, keeps it so
    (add refuses a product already in the cart, update keeps the product of
    the item it changes). *)
Theorem served_carts_nodup (d : string) (s : Store) :
  served d s -> carts_nodup s.
Proof.
  induction 1 as [s Hs | s o _ IH].
  - exact Hs.
  - apply run_op_preserves_nodup, IH.
Qed.

Lemma served_carts_nodup_witness :
  carts_nodup
    (snd (run_op default_address (OpAdd ann "p1" 5)
       (snd (run_op default_address (OpAdd ann "p1" 2) s_empty)))).
Proof.
  apply (served_carts_nodup default_address).
  apply served_step, served_step.
  apply served_init. unfold carts_nodup. simpl. apply map_Forall_empty.
Defined.
